(** * Isaac Lab: render/physics timing test and the deformable-object config

    A shallow embedding of

    - [source/extensions/omni.isaac.lab/test/envs/test_env_rendering_logic.py]
    - [source/extensions/omni.isaac.lab/omni/isaac/lab/assets/deformable_object/deformable_object_cfg.py]

    Python [int] is [Z]; Python [float] is IEEE binary64, that is Rocq's
    primitive [float]; the test instance's four accumulators are a record
    passed explicitly through the callbacks, the environment step and the
    test loop. *)

From stdpp Require Import gmap strings list.
From Stdlib Require Import ZArith Floats Lia.

Open Scope Z_scope.

(** ** Python numbers *)

Module Py.

(** [float(z)]: the binary64 nearest to the integer [z] (ties to even).  For
    |z| >= 2^1024 Python raises OverflowError where this gives an infinity;
    the test never leaves the range of exactly representable integers. *)
Definition of_int (z : Z) : float :=
  SF2Prim (binary_normalize prec emax z 0 false).


(** [a == b] on floats. *)
Definition float_eq (a b : float) : bool := PrimFloat.eqb a b.

(** [round(x, places) == 0] for a float [x] and [places >= 0].  CPython
    rounds the exact decimal expansion of [x] half-to-even at [places]
    digits, so the result is zero exactly when |x| * 2 * 10^places <= 1.  A
    finite nonzero float is m * 2^e for a positive integer m; for places > 0
    the integer m * 2 * 10^places is a multiple of 5 and so never the power of
    two 2^(-e): the tie does not occur and the comparison is strict. *)
Definition round_is_zero (x : float) (places : Z) : bool :=
  match Prim2SF x with
  | S754_zero _ => true
  | S754_finite _ m e =>
      if 0 <=? e then false
      else Z.pos m * 2 * 10 ^ places <? 2 ^ (- e)
  | S754_infinity _ => false
  | S754_nan => false
  end.

End Py.

(** ** unittest assertions *)

(** [TestCase.assertAlmostEqual(first, second)] with the default
    [places = 7]: passes when [first == second], else when
    [round(abs(first - second), 7) == 0]. *)
Definition assertAlmostEqual (first second : float) : bool :=
  if Py.float_eq first second then true
  else Py.round_is_zero (PrimFloat.abs (first - second)) 7.

(** [TestCase.assertEqual] on integers. *)
Definition assertEqual (first second : Z) : bool := first =? second.

(** ** Configuration records *)

Record SimulationCfg := {
  dt : float;
  render_interval : Z
}.

Record InteractiveSceneCfg := {
  num_envs : Z;
  env_spacing : float
}.

(** [EmptyManagerCfg]: a config class with no field. *)
Inductive EmptyManagerCfg := mkEmptyManagerCfg.

(** The three local [EnvCfg] classes share these fields; [actions] and
    [observations] exist on the manager-based ones, [num_actions] and
    [num_observations] on the direct one. *)
Record EnvCfg := {
  decimation : Z;
  sim : SimulationCfg;
  scene : InteractiveSceneCfg;
  actions : option EmptyManagerCfg;
  observations : option EmptyManagerCfg;
  num_actions : option Z;
  num_observations : option Z
}.

(** The configured simulation timestep [0.005]: the literal denotes the
    binary64 nearest to 5/1000, written here exactly. *)
Definition dt_0_005 : float := 0x1.47ae147ae147bp-8%float.

(** ** The test instance and its callbacks *)

Record TestEnvRenderingLogic := {
  physics_time : float;
  render_time : float;
  num_physics_steps : Z;
  num_render_steps : Z
}.

(** [carb.events.IEvent], of which the test reads [event.payload["dt"]]. *)
Record IEvent := { payload_dt : float }.

Definition _physics_callback (self : TestEnvRenderingLogic) (dt : float)
  : TestEnvRenderingLogic :=
  {| physics_time := (physics_time self + dt)%float;
     render_time := render_time self;
     num_physics_steps := num_physics_steps self + 1;
     num_render_steps := num_render_steps self |}.

Definition _render_callback (self : TestEnvRenderingLogic) (event : IEvent)
  : TestEnvRenderingLogic :=
  {| physics_time := physics_time self;
     render_time := (render_time self + payload_dt event)%float;
     num_physics_steps := num_physics_steps self;
     num_render_steps := num_render_steps self + 1 |}.

(** ** Environments *)

Inductive EnvClass := ManagerBasedEnv | ManagerBasedRLEnv | DirectRLEnv.

Inductive RenderMode :=
  NO_GUI_OR_RENDERING | NO_RENDERING | PARTIAL_RENDERING | FULL_RENDERING.

(** The simulation context as the test uses it: a settings flag, the render
    mode, and the callbacks registered by name.  A callback is a bound method
    of the test instance, so it acts on the instance's state. *)
Record SimulationContext := {
  rtx_sensors : bool;
  render_mode : RenderMode;
  physics_callbacks :
    list (string * (TestEnvRenderingLogic -> float -> TestEnvRenderingLogic));
  render_callbacks :
    list (string * (TestEnvRenderingLogic -> IEvent -> TestEnvRenderingLogic))
}.

Record Env := {
  env_class : EnvClass;
  cfg : EnvCfg;
  env_sim : SimulationContext;
  _sim_step_counter : Z
}.

Definition mk_sim_cfg (render_interval : Z) : SimulationCfg :=
  {| dt := dt_0_005; render_interval := render_interval |}.

Definition mk_scene_cfg : InteractiveSceneCfg :=
  {| num_envs := 1; env_spacing := 1%float |}.

(** Modelled from the spec: the constructors of the environment classes
    (omni.isaac.lab.envs) are not among the sources.  A new environment holds
    its configuration, has taken no physics step, has no callback registered,
    and is in partial rendering mode because the application was launched
    with [enable_cameras=True] (the test asserts so right after building it). *)
Definition new_env (c : EnvClass) (cfg : EnvCfg) : Env :=
  {| env_class := c;
     cfg := cfg;
     env_sim := {| rtx_sensors := false;
                   render_mode := PARTIAL_RENDERING;
                   physics_callbacks := [];
                   render_callbacks := [] |};
     _sim_step_counter := 0 |}.

Definition create_manager_based_env (render_interval : Z) : Env :=
  new_env ManagerBasedEnv
    {| decimation := 4;
       sim := mk_sim_cfg render_interval;
       scene := mk_scene_cfg;
       actions := Some mkEmptyManagerCfg;
       observations := Some mkEmptyManagerCfg;
       num_actions := None;
       num_observations := None |}.

Definition create_manager_based_rl_env (render_interval : Z) : Env :=
  new_env ManagerBasedRLEnv
    {| decimation := 4;
       sim := mk_sim_cfg render_interval;
       scene := mk_scene_cfg;
       actions := Some mkEmptyManagerCfg;
       observations := Some mkEmptyManagerCfg;
       num_actions := None;
       num_observations := None |}.

Definition create_direct_rl_env (render_interval : Z) : Env :=
  new_env DirectRLEnv
    {| decimation := 4;
       sim := mk_sim_cfg render_interval;
       scene := mk_scene_cfg;
       actions := None;
       observations := None;
       num_actions := Some 0;
       num_observations := Some 0 |}.

(** [torch.zeros(n, dtype=torch.bool)]: a one-dimensional boolean tensor. *)
Definition torch_zeros_bool (n : nat) : list bool := replicate n false.

(** [Env._get_dones] of the direct RL test environment; [self] is unused. *)
Definition _get_dones (self : Env) : list bool * list bool :=
  (torch_zeros_bool 1, torch_zeros_bool 1).

(** *** Simulation-context operations *)

Definition set_rtx_sensors (v : bool) (e : Env) : Env :=
  {| env_class := env_class e;
     cfg := cfg e;
     env_sim := {| rtx_sensors := v;
                   render_mode := render_mode (env_sim e);
                   physics_callbacks := physics_callbacks (env_sim e);
                   render_callbacks := render_callbacks (env_sim e) |};
     _sim_step_counter := _sim_step_counter e |}.

Definition add_physics_callback (name : string)
    (f : TestEnvRenderingLogic -> float -> TestEnvRenderingLogic) (e : Env) : Env :=
  {| env_class := env_class e;
     cfg := cfg e;
     env_sim := {| rtx_sensors := rtx_sensors (env_sim e);
                   render_mode := render_mode (env_sim e);
                   physics_callbacks := physics_callbacks (env_sim e) ++ [(name, f)];
                   render_callbacks := render_callbacks (env_sim e) |};
     _sim_step_counter := _sim_step_counter e |}.

Definition add_render_callback (name : string)
    (f : TestEnvRenderingLogic -> IEvent -> TestEnvRenderingLogic) (e : Env) : Env :=
  {| env_class := env_class e;
     cfg := cfg e;
     env_sim := {| rtx_sensors := rtx_sensors (env_sim e);
                   render_mode := render_mode (env_sim e);
                   physics_callbacks := physics_callbacks (env_sim e);
                   render_callbacks := render_callbacks (env_sim e) ++ [(name, f)] |};
     _sim_step_counter := _sim_step_counter e |}.

Definition set_sim_step_counter (c : Z) (e : Env) : Env :=
  {| env_class := env_class e;
     cfg := cfg e;
     env_sim := env_sim e;
     _sim_step_counter := c |}.

(** Calling every registered callback in registration order. *)
Definition fire {A : Type}
    (cbs : list (string * (TestEnvRenderingLogic -> A -> TestEnvRenderingLogic)))
    (arg : A) (self : TestEnvRenderingLogic) : TestEnvRenderingLogic :=
  foldl (fun s cb => cb.2 s arg) self cbs.

(** *** Stepping *)

(** Modelled from the spec: [step] of the three environment classes and the
    stepping of the simulation context are not among the sources.  Following
    the glossary, one environment step performs [decimation] physics steps and
    a rendering update happens once per [render_interval] physics steps.  A
    physics step advances the environment's physics-step counter and calls the
    physics callbacks with the timestep [dt]; when rendering is enabled (the
    flag the test sets) and the counter is a multiple of [render_interval], the
    render callbacks are called with an event whose payload [dt] is the
    rendering timestep [dt * render_interval]. *)
Definition sim_step (w : Env * TestEnvRenderingLogic) : Env * TestEnvRenderingLogic :=
  let env := w.1 in
  let self := w.2 in
  let c := _sim_step_counter env + 1 in
  let sdt := dt (sim (cfg env)) in
  let R := render_interval (sim (cfg env)) in
  let self := fire (physics_callbacks (env_sim env)) sdt self in
  let self :=
    if rtx_sensors (env_sim env) && (c mod R =? 0)
    then fire (render_callbacks (env_sim env))
              {| payload_dt := (sdt * Py.of_int R)%float |} self
    else self in
  (set_sim_step_counter c env, self).

(** Modelled from the spec: [env.step(action)]; the zero-width action tensor
    carries no data and is left out. *)
Definition step (w : Env * TestEnvRenderingLogic) : Env * TestEnvRenderingLogic :=
  Nat.iter (Z.to_nat (decimation (cfg w.1))) sim_step w.

(** *** Termination handling of the direct RL environment *)

(** A choice of the environments to reset is driven by the termination
    signals when it only picks indices at which one of the two tensors
    returned by [_get_dones] is true. *)
Definition only_flagged (reset_env_ids : list bool -> list bool -> list nat) : Prop :=
  forall terminated time_outs (id : nat),
    In id (reset_env_ids terminated time_outs) ->
    terminated !! id = Some true \/ time_outs !! id = Some true.

(** One such choice: every index at which either tensor is true. *)
Definition flagged_ids (terminated time_outs : list bool) : list nat :=
  filter (fun id => terminated !! id = Some true \/ time_outs !! id = Some true)
         (seq 0 (Nat.max (length terminated) (length time_outs))).

Section DirectRLEnv_step.

(** What [DirectRLEnv.step] does with the tensors of [_get_dones] is not among
    the sources and the spec does not fix it: which environments they select
    and what resetting them does to the environment and to the test instance
    are left open. *)
Variable reset_env_ids : list bool -> list bool -> list nat.
Variable _reset_idx :
  list nat -> Env * TestEnvRenderingLogic -> Env * TestEnvRenderingLogic.

(** Modelled from the spec: [DirectRLEnv.step], which is not among the
    sources.  It steps as every environment does, then asks the environment's
    own [_get_dones] for the termination signals and resets the environments
    they select, if any. *)
Definition direct_rl_step (w : Env * TestEnvRenderingLogic)
  : Env * TestEnvRenderingLogic :=
  let w := step w in
  let dones := _get_dones w.1 in
  match reset_env_ids dones.1 dones.2 with
  | [] => w
  | ids => _reset_idx ids w
  end.

End DirectRLEnv_step.

(** ** The test *)

Definition env_types : list string :=
  ["manager_based_env"; "manager_based_rl_env"; "direct_rl_env"].

Definition render_intervals : list Z := [1; 2; 4; 8; 10].

(** The [if]/[elif]/[else] that builds the environment of a sub-test. *)
Definition create_env (env_type : string) (render_interval : Z) : Env :=
  if String.eqb env_type "manager_based_env"
  then create_manager_based_env render_interval
  else if String.eqb env_type "manager_based_rl_env"
  then create_manager_based_rl_env render_interval
  else create_direct_rl_env render_interval.

(** The tracking variables as the sub-test sets them first. *)
Definition reset_tracking (self : TestEnvRenderingLogic) : TestEnvRenderingLogic :=
  {| physics_time := 0%float;
     render_time := 0%float;
     num_physics_steps := 0;
     num_render_steps := 0 |}.

(** A sub-test up to the stepping loop: reset the tracking variables, build
    the environment, set the render flag, register the two callbacks. *)
Definition subtest_setup (self : TestEnvRenderingLogic)
    (env_type : string) (render_interval : Z) : Env * TestEnvRenderingLogic :=
  let self := reset_tracking self in
  let env := create_env env_type render_interval in
  let env := set_rtx_sensors true env in
  let env := add_physics_callback "physics_step" _physics_callback env in
  let env := add_render_callback "render_step" _render_callback env in
  (env, self).

Inductive outcome :=
| Passed
| Failed (msg : string) (i : Z).

(** The expected values the assertions compare with, as functions of the
    numbers they are computed from: the two step counts for the loop index
    [i], and the two times for a step count [n]. *)
Definition expected_physics_steps (i D : Z) : Z := (i + 1) * D.

Definition expected_render_steps (i D R : Z) : Z := (i + 1) * D / R.

Definition physics_time_rhs (n : Z) (dt : float) : float :=
  (Py.of_int n * dt)%float.

Definition render_time_rhs (n : Z) (dt : float) (R : Z) : float :=
  (Py.of_int n * dt * Py.of_int R)%float.

(** The four assertions made after the step with loop index [i]; the first one
    that fails ends the sub-test with its message.  Python raises instead of
    asserting in two cases this function does not tell apart: the floor
    division by a zero render interval (ZeroDivisionError) and the conversion
    to float of an integer out of the float range (OverflowError, see
    [Py.of_int_overflows]); neither occurs with the test's configurations. *)
Definition check_after_step (i : Z) (w : Env * TestEnvRenderingLogic) : outcome :=
  let env := w.1 in
  let self := w.2 in
  let D := decimation (cfg env) in
  let sdt := dt (sim (cfg env)) in
  let R := render_interval (sim (cfg env)) in
  if negb (assertEqual (num_physics_steps self) (expected_physics_steps i D))
  then Failed "Physics steps mismatch" i
  else if negb (assertAlmostEqual (physics_time self)
                  (physics_time_rhs (num_physics_steps self) sdt))
  then Failed "Physics time mismatch" i
  else if negb (assertEqual (num_render_steps self) (expected_render_steps i D R))
  then Failed "Render steps mismatch" i
  else if negb (assertAlmostEqual (render_time self)
                  (render_time_rhs (num_render_steps self) sdt R))
  then Failed "Render time mismatch" i
  else Passed.

(** [for i in range(...)]: step, then check. *)
Fixpoint step_loop (indices : list Z) (w : Env * TestEnvRenderingLogic)
  : outcome * (Env * TestEnvRenderingLogic) :=
  match indices with
  | [] => (Passed, w)
  | i :: rest =>
      let w := step w in
      match check_after_step i w with
      | Passed => step_loop rest w
      | failure => (failure, w)
      end
  end.

Definition range (n : nat) : list Z := map Z.of_nat (seq 0 n).

(** One sub-test; a mismatch of the render mode fails it before any step. *)
Definition subtest (self : TestEnvRenderingLogic)
    (env_type : string) (render_interval : Z) : outcome * TestEnvRenderingLogic :=
  let w := subtest_setup self env_type render_interval in
  match render_mode (env_sim w.1) with
  | PARTIAL_RENDERING =>
      let r := step_loop (range 50) w in (r.1, r.2.2)
  | _ => (Failed "render mode" (-1), w.2)
  end.

(** The pairs the two nested [for] loops go through, in order. *)
Definition subtests : list (string * Z) :=
  env_type ← env_types; (fun r => (env_type, r)) <$> render_intervals.

(** The whole test method: the instance is carried from one sub-test to the
    next; a failing sub-test is recorded and the loops go on. *)
Definition test_env_rendering_logic (self : TestEnvRenderingLogic)
  : list outcome * TestEnvRenderingLogic :=
  foldl (fun acc p =>
           let r := subtest acc.2 p.1 p.2 in
           (acc.1 ++ [r.1], r.2))
        ([], self) subtests.

(** The state of a sub-test after [n] calls of [env.step]. *)
Definition after_steps (n : nat) (self : TestEnvRenderingLogic)
    (env_type : string) (render_interval : Z) : Env * TestEnvRenderingLogic :=
  Nat.iter n step (subtest_setup self env_type render_interval).


(** The two time right-hand sides when the step counts have their expected
    values, which the two count assertions have just checked. *)
Definition expected_physics_time (i D : Z) (dt : float) : float :=
  physics_time_rhs (expected_physics_steps i D) dt.

Definition expected_render_time (i D R : Z) (dt : float) : float :=
  render_time_rhs (expected_render_steps i D R) dt R.

(** ** The deformable-object configuration class *)

(** A Python value as a class attribute holds it: here only references to
    classes occur. *)
Inductive pyvalue := ClassRef (name : string).

Record field := { annotation : string; default : pyvalue }.

(** A class statement: its name, its bases, the annotated attributes of its
    body in order, and the names of the functions defined in its body. *)
Record class_decl := {
  cls_name : string;
  cls_bases : list string;
  cls_body : list (string * field);
  cls_methods : list string
}.

Definition DeformableObjectCfg : class_decl :=
  {| cls_name := "DeformableObjectCfg";
     cls_bases := ["AssetBaseCfg"];
     cls_body := [("class_type",
                   {| annotation := "type"; default := ClassRef "DeformableObject" |})];
     cls_methods := [] |}.

(** The fields of a config class: those of its base, where an attribute of
    the class's own body replaces the inherited one of the same name. *)
Definition class_fields (base_fields : gmap string field) (c : class_decl)
  : gmap string field :=
  foldl (fun m kv => <[kv.1 := kv.2]> m) base_fields (cls_body c).

(** ** The callbacks as the simulation loop sees them *)

(** One call the simulation loop makes into the test instance: the physics
    callback with a timestep, or the render callback with an event. *)
Inductive callback_call :=
| PhysicsCall (dt : float)
| RenderCall (event : IEvent).

Definition do_call (self : TestEnvRenderingLogic) (c : callback_call)
  : TestEnvRenderingLogic :=
  match c with
  | PhysicsCall d => _physics_callback self d
  | RenderCall e => _render_callback self e
  end.

(** A sequence of calls, made in order. *)
Definition do_calls (self : TestEnvRenderingLogic) (cs : list callback_call)
  : TestEnvRenderingLogic :=
  foldl do_call self cs.

(** The timesteps of the physics calls of a sequence, and the events of its
    render calls, each in order. *)
Definition physics_dts (cs : list callback_call) : list float :=
  omap (fun c => match c with PhysicsCall d => Some d | RenderCall _ => None end) cs.

Definition render_events (cs : list callback_call) : list IEvent :=
  omap (fun c => match c with PhysicsCall _ => None | RenderCall e => Some e end) cs.


(** * Properties *)

(** ** Stepping: the counters after any number of physics steps *)

(** An environment as the sub-test leaves it before the loop: rendering
    enabled and exactly the two callbacks of the test registered. *)
Definition wired (e : Env) : Prop :=
  rtx_sensors (env_sim e) = true /\
  physics_callbacks (env_sim e) = [("physics_step", _physics_callback)] /\
  render_callbacks (env_sim e) = [("render_step", _render_callback)].

(** The tracking variables right after their reset. *)
Definition fresh : TestEnvRenderingLogic :=
  {| physics_time := 0%float; render_time := 0%float;
     num_physics_steps := 0; num_render_steps := 0 |}.

Lemma sim_step_env w :
  (sim_step w).1 = set_sim_step_counter (_sim_step_counter w.1 + 1) w.1.
Proof. reflexivity. Qed.

Lemma sim_step_physics_count w :
  wired w.1 ->
  num_physics_steps (sim_step w).2 = num_physics_steps w.2 + 1.
Proof.
  intros (_ & Hp & Hr). unfold sim_step. rewrite Hp, Hr.
  destruct (_ && _); reflexivity.
Qed.

Lemma sim_step_render_count w :
  wired w.1 ->
  num_render_steps (sim_step w).2 =
  num_render_steps w.2 +
  (if (_sim_step_counter w.1 + 1) mod render_interval (sim (cfg w.1)) =? 0
   then 1 else 0).
Proof.
  intros (Hx & Hp & Hr). unfold sim_step. rewrite Hx, Hp, Hr. simpl.
  destruct (_ =? 0); simpl; lia.
Qed.

(** One more physics step raises the quotient by [R] exactly when the new
    count is a multiple of [R]. *)
Lemma div_succ m R :
  0 <= m -> 0 < R ->
  (m + 1) / R = m / R + (if (m + 1) mod R =? 0 then 1 else 0).
Proof.
  intros Hm HR. destruct (Z.eqb_spec ((m + 1) mod R) 0) as [E | E].
  - symmetry. apply (Z.div_unique (m + 1) R _ 0); [lia |].
    pose proof (Z.div_mod (m + 1) R ltac:(lia)) as H1.
    pose proof (Z.div_mod m R ltac:(lia)) as H2.
    pose proof (Z.mod_pos_bound m R HR) as B.
    rewrite E in H1.
    assert (Hq : (m + 1) / R = m / R + 1) by nia.
    nia.
  - symmetry. apply (Z.div_unique (m + 1) R _ (m mod R + 1)).
    + pose proof (Z.mod_pos_bound m R HR) as B.
      assert (m mod R + 1 <> R).
      { intros C. apply E.
        rewrite (Z.div_mod m R) by lia.
        replace (R * (m / R) + m mod R + 1) with ((m / R + 1) * R) by lia.
        apply Z.mod_mul. lia. }
      lia.
    + pose proof (Z.div_mod m R ltac:(lia)). lia.
Qed.

(** After [m] physics steps from a wired environment with fresh counters:
    the configuration and the callbacks are untouched, the environment has
    counted [m] steps, the physics callback ran [m] times and the render
    callback [m / R] times. *)
Lemma iter_sim_step (m : nat) w :
  wired w.1 ->
  0 < render_interval (sim (cfg w.1)) ->
  _sim_step_counter w.1 = 0 ->
  num_physics_steps w.2 = 0 ->
  num_render_steps w.2 = 0 ->
  let w' := Nat.iter m sim_step w in
  cfg w'.1 = cfg w.1 /\ env_sim w'.1 = env_sim w.1 /\
  _sim_step_counter w'.1 = Z.of_nat m /\
  num_physics_steps w'.2 = Z.of_nat m /\
  num_render_steps w'.2 = Z.of_nat m / render_interval (sim (cfg w.1)).
Proof.
  intros Hw HR Hc Hp Hr. induction m as [| m IH].
  - simpl. rewrite Hc, Hp, Hr. repeat split; reflexivity.
  - cbn zeta in *. rewrite Nat.iter_succ.
    destruct IH as (Icfg & Isim & Ic & Ip & Irn).
    set (v := Nat.iter m sim_step w) in *.
    assert (Hv : wired v.1) by (unfold wired; rewrite Isim; exact Hw).
    rewrite sim_step_env, sim_step_physics_count, sim_step_render_count by exact Hv.
    simpl. rewrite Icfg, Ic, Ip, Irn.
    repeat split; try assumption; try lia.
    rewrite Nat2Z.inj_succ. unfold Z.succ.
    rewrite (div_succ (Z.of_nat m)) by lia. reflexivity.
Qed.

Lemma iter_sim_step_cfg (m : nat) w : cfg (Nat.iter m sim_step w).1 = cfg w.1.
Proof. induction m as [| m IH]; [reflexivity |]. rewrite Nat.iter_succ. exact IH. Qed.

Lemma iter_sim_step_env_class (m : nat) w :
  env_class (Nat.iter m sim_step w).1 = env_class w.1.
Proof. induction m as [| m IH]; [reflexivity |]. rewrite Nat.iter_succ. exact IH. Qed.

(** [n] environment steps are [n * decimation] physics steps. *)
Lemma iter_step (n : nat) w :
  Nat.iter n step w =
  Nat.iter (n * Z.to_nat (decimation (cfg w.1))) sim_step w.
Proof.
  induction n as [| n IH]; [reflexivity |].
  rewrite Nat.iter_succ, IH. unfold step at 1.
  rewrite iter_sim_step_cfg. simpl Nat.mul.
  symmetry. apply Nat.iter_add.
Qed.

(** *** What a sub-test's environment is *)

Lemma create_env_cases env_type :
  create_env env_type = create_manager_based_env \/
  create_env env_type = create_manager_based_rl_env \/
  create_env env_type = create_direct_rl_env.
Proof.
  unfold create_env.
  destruct (String.eqb env_type "manager_based_env"); [left; reflexivity |].
  destruct (String.eqb env_type "manager_based_rl_env");
    [right; left | right; right]; reflexivity.
Qed.

Lemma create_env_cfg env_type R :
  decimation (cfg (create_env env_type R)) = 4 /\
  sim (cfg (create_env env_type R)) = mk_sim_cfg R.
Proof.
  destruct (create_env_cases env_type) as [E | [E | E]]; rewrite E; split; reflexivity.
Qed.

Lemma subtest_setup_wired self env_type R :
  let w := subtest_setup self env_type R in
  wired w.1 /\ _sim_step_counter w.1 = 0 /\ w.2 = fresh /\
  cfg w.1 = cfg (create_env env_type R).
Proof.
  destruct (create_env_cases env_type) as [E | [E | E]];
    unfold subtest_setup; rewrite E; repeat split; reflexivity.
Qed.

(** The counters of a sub-test after [n] environment steps, for any positive
    render interval. *)
Lemma counts_after_steps (n : nat) self env_type R :
  0 < R ->
  let w := after_steps n self env_type R in
  decimation (cfg w.1) = 4 /\
  render_interval (sim (cfg w.1)) = R /\
  dt (sim (cfg w.1)) = dt_0_005 /\
  num_physics_steps w.2 = Z.of_nat n * 4 /\
  num_render_steps w.2 = Z.of_nat n * 4 / R.
Proof.
  intros HR. unfold after_steps. cbn zeta.
  destruct (subtest_setup_wired self env_type R) as (Hw & Hc & Hf & Hcfg).
  destruct (create_env_cfg env_type R) as (HD & Hsim).
  rewrite iter_step.
  set (w0 := subtest_setup self env_type R) in *.
  assert (HD0 : decimation (cfg w0.1) = 4) by (rewrite Hcfg; exact HD).
  assert (HR0 : render_interval (sim (cfg w0.1)) = R) by (rewrite Hcfg, Hsim; reflexivity).
  rewrite HD0.
  destruct (iter_sim_step (n * Z.to_nat 4) w0 Hw) as (Icfg & _ & _ & Ip & Irn).
  - rewrite HR0. exact HR.
  - exact Hc.
  - rewrite Hf. reflexivity.
  - rewrite Hf. reflexivity.
  - rewrite Icfg, Ip, Irn, HD0, HR0, Hcfg, Hsim.
    replace (Z.of_nat (n * Z.to_nat 4)) with (Z.of_nat n * 4) by lia.
    repeat split; reflexivity.
Qed.

Lemma render_intervals_pos R : In R render_intervals -> 0 < R.
Proof. unfold render_intervals. simpl. intros H. lia. Qed.

(** ** The step counts *)

(** C1: in every sub-test (any environment flavor, any of the tested render
    intervals), after [i+1] calls of [env.step], for [i] from 0 to 49, the
    physics callback has been counted [(i+1) * decimation] times. *)
Theorem physics_steps_after_each_step self env_type R (i : nat) :
  In R render_intervals -> (i < 50)%nat ->
  let w := after_steps (S i) self env_type R in
  num_physics_steps w.2 = expected_physics_steps (Z.of_nat i) (decimation (cfg w.1)).
Proof.
  intros HR _. cbn zeta.
  destruct (counts_after_steps (S i) self env_type R (render_intervals_pos R HR))
    as (HD & _ & _ & Hp & _).
  rewrite Hp, HD. unfold expected_physics_steps. lia.
Qed.

Lemma physics_steps_after_each_step_witness :
  In 2 render_intervals /\ (3 < 50)%nat /\
  let w := after_steps 4 fresh "direct_rl_env" 2 in
  num_physics_steps w.2 = expected_physics_steps 3 (decimation (cfg w.1)).
Proof.
  split; [simpl; tauto |]. split; [lia |].
  apply (physics_steps_after_each_step fresh "direct_rl_env" 2 3); [simpl; tauto | lia].
Defined.

(** C2: in every sub-test, after [i+1] calls of [env.step], for [i] from 0 to
    49, the render callback has been counted [(i+1) * decimation // R]
    times, [R] being the render interval. *)
Theorem render_steps_after_each_step self env_type R (i : nat) :
  In R render_intervals -> (i < 50)%nat ->
  let w := after_steps (S i) self env_type R in
  num_render_steps w.2 =
  expected_render_steps (Z.of_nat i) (decimation (cfg w.1))
    (render_interval (sim (cfg w.1))).
Proof.
  intros HR _. cbn zeta.
  destruct (counts_after_steps (S i) self env_type R (render_intervals_pos R HR))
    as (HD & HRI & _ & _ & Hr).
  rewrite Hr, HD, HRI. unfold expected_render_steps.
  f_equal. lia.
Qed.

Lemma render_steps_after_each_step_witness :
  In 10 render_intervals /\ (6 < 50)%nat /\
  let w := after_steps 7 fresh "manager_based_env" 10 in
  num_render_steps w.2 =
  expected_render_steps 6 (decimation (cfg w.1)) (render_interval (sim (cfg w.1))).
Proof.
  split; [simpl; tauto |]. split; [lia |].
  apply (render_steps_after_each_step fresh "manager_based_env" 10 6); [simpl; tauto | lia].
Defined.

(** C8: for every loop index [i >= 0], decimation [D >= 1] and render interval
    [R >= 1], the expected render-step count times [R] is at most the
    expected physics-step count. *)
Theorem render_steps_times_interval_le_physics_steps (i D R : Z) :
  0 <= i -> 1 <= D -> 1 <= R ->
  expected_render_steps i D R * R <= expected_physics_steps i D.
Proof.
  intros Hi HD HR. unfold expected_render_steps, expected_physics_steps.
  rewrite Z.mul_comm. apply Z.mul_div_le. lia.
Qed.

Lemma render_steps_times_interval_le_physics_steps_witness :
  0 <= 2 /\ 1 <= 4 /\ 1 <= 10 /\
  expected_render_steps 2 4 10 * 10 <= expected_physics_steps 2 4.
Proof.
  repeat (split; [lia |]).
  apply (render_steps_times_interval_le_physics_steps 2 4 10); lia.
Defined.

(** ** The accumulated times *)

(** The three constructors a sub-test can call. *)
Definition creators : list (Z -> Env) :=
  [create_manager_based_env; create_manager_based_rl_env; create_direct_rl_env].

(** [subtest_setup] for a given constructor. *)
Definition setup_with (mk : Z -> Env) (R : Z) : Env * TestEnvRenderingLogic :=
  (add_render_callback "render_step" _render_callback
     (add_physics_callback "physics_step" _physics_callback
        (set_rtx_sensors true (mk R))),
   fresh).

(** A decidable property of the loop index and the state after that step,
    checked at each of the 50 checkpoints of each sub-test. *)
Definition all_checkpoints (P : nat -> Env * TestEnvRenderingLogic -> bool) : bool :=
  forallb (fun mk =>
    forallb (fun R =>
      forallb (fun i => P i (Nat.iter (S i) step (setup_with mk R))) (seq 0 50))
      render_intervals)
    creators.

Lemma all_checkpoints_spec P :
  all_checkpoints P = true ->
  forall self env_type R (i : nat),
    In R render_intervals -> (i < 50)%nat ->
    P i (after_steps (S i) self env_type R) = true.
Proof.
  unfold all_checkpoints. intros H self env_type R i HR Hi.
  rewrite forallb_forall in H.
  assert (Hmk : In (create_env env_type) creators).
  { destruct (create_env_cases env_type) as [E | [E | E]]; rewrite E;
      simpl; tauto. }
  specialize (H _ Hmk). rewrite forallb_forall in H.
  specialize (H _ HR). rewrite forallb_forall in H.
  apply (H i). apply in_seq. lia.
Qed.

(** The same for a property of the loop index and the render interval alone. *)
Definition all_indices (P : nat -> Z -> bool) : bool :=
  forallb (fun R => forallb (fun i => P i R) (seq 0 50)) render_intervals.

Lemma all_indices_spec P :
  all_indices P = true ->
  forall R (i : nat), In R render_intervals -> (i < 50)%nat -> P i R = true.
Proof.
  unfold all_indices. intros H R i HR Hi.
  rewrite forallb_forall in H. specialize (H _ HR).
  rewrite forallb_forall in H. apply (H i). apply in_seq. lia.
Qed.


(** C3, as stated, fails: with render interval 1, after the third
    environment step (twelve physics steps) the sum of twelve [dt] is not the
    float [12 * dt]. *)
Lemma physics_time_not_exactly_steps_times_dt :
  In 1 render_intervals /\ (2 < 50)%nat /\
  let w := after_steps 3 fresh "manager_based_env" 1 in
  Py.float_eq (physics_time w.2)
    (physics_time_rhs (num_physics_steps w.2) (dt (sim (cfg w.1)))) = false.
Proof. split; [simpl; tauto |]. split; [lia |]. vm_compute. reflexivity. Qed.

(** C3, amended: in every sub-test, after each of the 50 environment steps,
    the accumulated [physics_time] is almost equal, in the sense of
    [assertAlmostEqual] (equal, or a difference that rounds to zero at seven
    decimal places), to [num_physics_steps * dt]. *)
Theorem physics_time_almost_steps_times_dt self env_type R (i : nat) :
  In R render_intervals -> (i < 50)%nat ->
  let w := after_steps (S i) self env_type R in
  assertAlmostEqual (physics_time w.2)
    (physics_time_rhs (num_physics_steps w.2) (dt (sim (cfg w.1)))) = true.
Proof.
  revert self env_type R i.
  apply (all_checkpoints_spec
           (fun _ w => assertAlmostEqual (physics_time w.2)
              (physics_time_rhs (num_physics_steps w.2) (dt (sim (cfg w.1)))))).
  vm_compute. reflexivity.
Qed.

Lemma physics_time_almost_steps_times_dt_witness :
  In 1 render_intervals /\ (2 < 50)%nat /\
  let w := after_steps 3 fresh "manager_based_env" 1 in
  assertAlmostEqual (physics_time w.2)
    (physics_time_rhs (num_physics_steps w.2) (dt (sim (cfg w.1)))) = true.
Proof.
  split; [simpl; tauto |]. split; [lia |].
  apply (physics_time_almost_steps_times_dt fresh "manager_based_env" 1 2);
    [simpl; tauto | lia].
Defined.

(** C4, as stated, fails: with render interval 1, after the third
    environment step the sum of the twelve render payloads is not the float
    [12 * dt * 1]. *)
Lemma render_time_not_exactly_steps_times_dt_times_interval :
  In 1 render_intervals /\ (2 < 50)%nat /\
  let w := after_steps 3 fresh "manager_based_env" 1 in
  Py.float_eq (render_time w.2)
    (render_time_rhs (num_render_steps w.2) (dt (sim (cfg w.1)))
       (render_interval (sim (cfg w.1)))) = false.
Proof. split; [simpl; tauto |]. split; [lia |]. vm_compute. reflexivity. Qed.

(** C4, amended: in every sub-test, after each of the 50 environment steps,
    the accumulated [render_time] is almost equal, in the sense of
    [assertAlmostEqual], to [num_render_steps * dt * render_interval]. *)
Theorem render_time_almost_steps_times_dt_times_interval self env_type R (i : nat) :
  In R render_intervals -> (i < 50)%nat ->
  let w := after_steps (S i) self env_type R in
  assertAlmostEqual (render_time w.2)
    (render_time_rhs (num_render_steps w.2) (dt (sim (cfg w.1)))
       (render_interval (sim (cfg w.1)))) = true.
Proof.
  revert self env_type R i.
  apply (all_checkpoints_spec
           (fun _ w => assertAlmostEqual (render_time w.2)
              (render_time_rhs (num_render_steps w.2) (dt (sim (cfg w.1)))
                 (render_interval (sim (cfg w.1)))))).
  vm_compute. reflexivity.
Qed.

Lemma render_time_almost_steps_times_dt_times_interval_witness :
  In 8 render_intervals /\ (11 < 50)%nat /\
  let w := after_steps 12 fresh "direct_rl_env" 8 in
  assertAlmostEqual (render_time w.2)
    (render_time_rhs (num_render_steps w.2) (dt (sim (cfg w.1)))
       (render_interval (sim (cfg w.1)))) = true.
Proof.
  split; [simpl; tauto |]. split; [lia |].
  apply (render_time_almost_steps_times_dt_times_interval fresh "direct_rl_env" 8 11);
    [simpl; tauto | lia].
Defined.

(** C9, as stated, fails: with decimation 4, render interval 10 and loop
    index 44 the interval divides the 180 physics steps, yet the floats
    [18 * dt * 10] and [180 * dt] differ. *)
Lemma expected_render_time_not_always_expected_physics_time :
  In 10 render_intervals /\ (44 < 50)%nat /\
  expected_physics_steps 44 4 mod 10 = 0 /\
  Py.float_eq (expected_render_time 44 4 10 dt_0_005)
              (expected_physics_time 44 4 dt_0_005) = false.
Proof.
  split; [simpl; tauto |]. split; [lia |]. split; vm_compute; reflexivity.
Qed.

(** C9, amended: with the decimation and timestep of the test's
    configurations, for each tested render interval [R] and each loop index
    [i] below 50 such that [R] divides [(i+1) * decimation], the expected
    render time is almost equal (as [assertAlmostEqual] has it) to the
    expected physics time, and it is equal to it when [R] is not 10, so in
    particular for [R] in {1, 2, 4}. *)
Theorem expected_render_time_vs_expected_physics_time env_type R (i : nat) :
  In R render_intervals -> (i < 50)%nat ->
  let c := cfg (create_env env_type R) in
  let D := decimation c in
  let sdt := dt (sim c) in
  expected_physics_steps (Z.of_nat i) D mod render_interval (sim c) = 0 ->
  assertAlmostEqual (expected_render_time (Z.of_nat i) D (render_interval (sim c)) sdt)
                    (expected_physics_time (Z.of_nat i) D sdt) = true /\
  (R <> 10 ->
   Py.float_eq (expected_render_time (Z.of_nat i) D (render_interval (sim c)) sdt)
               (expected_physics_time (Z.of_nat i) D sdt) = true).
Proof.
  intros HR Hi. cbn zeta.
  destruct (create_env_cfg env_type R) as (-> & ->). simpl.
  set (P := fun (i : nat) (R : Z) =>
    implb (expected_physics_steps (Z.of_nat i) 4 mod R =? 0)
      (assertAlmostEqual (expected_render_time (Z.of_nat i) 4 R dt_0_005)
                         (expected_physics_time (Z.of_nat i) 4 dt_0_005) &&
       implb (negb (R =? 10))
         (Py.float_eq (expected_render_time (Z.of_nat i) 4 R dt_0_005)
                      (expected_physics_time (Z.of_nat i) 4 dt_0_005)))).
  assert (HP : P i R = true).
  { apply all_indices_spec; [vm_compute; reflexivity | exact HR | exact Hi]. }
  intros Hdiv. unfold P in HP.
  rewrite Hdiv in HP. simpl in HP.
  apply andb_prop in HP. destruct HP as (HA & HE). split; [exact HA |].
  intros Hne. destruct (Z.eqb_spec R 10) as [-> | _]; [contradiction | exact HE].
Qed.

Lemma expected_render_time_vs_expected_physics_time_witness :
  In 4 render_intervals /\ (0 < 50)%nat /\
  let c := cfg (create_env "manager_based_rl_env" 4) in
  let D := decimation c in
  let sdt := dt (sim c) in
  expected_physics_steps 0 D mod render_interval (sim c) = 0 /\
  assertAlmostEqual (expected_render_time 0 D (render_interval (sim c)) sdt)
                    (expected_physics_time 0 D sdt) = true /\
  (4 <> 10 ->
   Py.float_eq (expected_render_time 0 D (render_interval (sim c)) sdt)
               (expected_physics_time 0 D sdt) = true).
Proof.
  split; [simpl; tauto |]. split; [lia |]. cbn zeta. split; [reflexivity |].
  apply (expected_render_time_vs_expected_physics_time "manager_based_rl_env" 4 0);
    [simpl; tauto | lia | reflexivity].
Defined.

(** ** The configurations the sub-tests use *)

(** The decimation values of the environment configurations, one per
    sub-test. *)
Definition decimations_used : list Z :=
  map (fun p => decimation (cfg (create_env p.1 p.2))) subtests.

(** C5, as stated, fails: no two sub-tests differ in their decimation. *)
Lemma no_two_distinct_decimations :
  ~ (exists d1 d2 : Z,
       In d1 decimations_used /\ In d2 decimations_used /\ d1 <> d2).
Proof.
  intros (d1 & d2 & H1 & H2 & Hne). apply Hne.
  assert (H : forall d, In d decimations_used -> d = 4).
  { intros d Hd. unfold decimations_used in Hd. apply in_map_iff in Hd.
    destruct Hd as (p & <- & _). apply create_env_cfg. }
  rewrite (H d1 H1), (H d2 H2). reflexivity.
Qed.

(** C5, amended: every sub-test's environment configuration has the one
    decimation 4, whatever the flavor; what varies is the render interval,
    which the configuration takes from the sub-test and which ranges over the
    five distinct values 1, 2, 4, 8, 10 for each of the three flavors. *)
Theorem decimation_fixed_render_interval_varies :
  (forall env_type R,
     decimation (cfg (create_env env_type R)) = 4 /\
     render_interval (sim (cfg (create_env env_type R))) = R) /\
  render_intervals = [1; 2; 4; 8; 10] /\ NoDup render_intervals /\
  length env_types = 3%nat /\ NoDup env_types /\
  map env_class (map (fun t => create_env t 1) env_types)
  = [ManagerBasedEnv; ManagerBasedRLEnv; DirectRLEnv] /\
  length subtests = 15%nat.
Proof.
  split.
  { intros env_type R. destruct (create_env_cfg env_type R) as (HD & HS).
    rewrite HD, HS. split; reflexivity. }
  split; [reflexivity |].
  split; [apply (bool_decide_unpack _); vm_compute; reflexivity |].
  split; [reflexivity |].
  split; [apply (bool_decide_unpack _); vm_compute; reflexivity |].
  split; reflexivity.
Qed.

(** ** The reset at the start of a sub-test *)

(** What the instance held before a sub-test has no influence on it. *)
Lemma subtest_forgets self self' env_type R :
  subtest self env_type R = subtest self' env_type R.
Proof. reflexivity. Qed.

(** C6: whatever the instance held when a sub-test starts (a fresh instance,
    or the counters left by the sub-test before), at the point where the
    stepping loop begins [physics_time] and [render_time] are [0.0],
    [num_physics_steps] and [num_render_steps] are [0], and the new
    environment has not taken a physics step. *)
Theorem counters_reset_before_first_step self env_type R :
  let w := subtest_setup self env_type R in
  physics_time w.2 = 0%float /\ render_time w.2 = 0%float /\
  num_physics_steps w.2 = 0 /\ num_render_steps w.2 = 0 /\
  _sim_step_counter w.1 = 0.
Proof.
  cbn zeta. destruct (subtest_setup_wired self env_type R) as (_ & Hc & -> & _).
  rewrite Hc. repeat split; reflexivity.
Qed.

(** ** The direct RL environment's termination signals *)

Lemma get_dones_all_false (e : Env) :
  Forall (fun b => b = false) (_get_dones e).1 /\
  Forall (fun b => b = false) (_get_dones e).2.
Proof. split; repeat constructor. Qed.

Lemma get_dones_not_flagged (e : Env) (id : nat) :
  ~ ((_get_dones e).1 !! id = Some true \/ (_get_dones e).2 !! id = Some true).
Proof.
  destruct (get_dones_all_false e) as (H1 & H2).
  rewrite Forall_forall in H1, H2.
  intros [H | H]; apply list_elem_of_lookup_2 in H;
    [apply H1 in H | apply H2 in H]; discriminate H.
Qed.

(** Whatever resetting would do, a direct RL step of the test environment
    is a plain step: the signals select nothing. *)
Lemma direct_rl_step_is_step reset_env_ids _reset_idx w :
  only_flagged reset_env_ids ->
  direct_rl_step reset_env_ids _reset_idx w = step w.
Proof.
  intros Hsel. unfold direct_rl_step. cbn zeta.
  destruct (reset_env_ids (_get_dones (step w).1).1 (_get_dones (step w).1).2)
    as [| id ids] eqn:E; [reflexivity |].
  exfalso. apply (get_dones_not_flagged (step w).1 id).
  apply Hsel. rewrite E. left. reflexivity.
Qed.

Lemma iter_direct_rl_step reset_env_ids _reset_idx (n : nat) w :
  only_flagged reset_env_ids ->
  Nat.iter n (direct_rl_step reset_env_ids _reset_idx) w = Nat.iter n step w.
Proof.
  intros Hsel. induction n as [| n IH]; [reflexivity |].
  rewrite !Nat.iter_succ, IH. apply direct_rl_step_is_step. exact Hsel.
Qed.

Lemma flagged_ids_only_flagged : only_flagged flagged_ids.
Proof.
  intros terminated time_outs id H. unfold flagged_ids in H.
  apply list_elem_of_In, list_elem_of_filter in H. exact (proj1 H).
Qed.

(** C10: [_get_dones] returns all-false tensors on every call, so in the
    direct RL sub-tests no reset is triggered by termination: for every way
    of choosing the environments to reset from the signals (choosing only
    flagged ones) and whatever a reset would do, even wiping the counters, the
    state after each of the 50 environment steps is the one reached without
    any reset, and the counters stand at [(i+1) * decimation] physics steps
    and [(i+1) * decimation // R] render steps. *)
Theorem direct_rl_env_never_resets reset_env_ids _reset_idx self R (i : nat) :
  only_flagged reset_env_ids ->
  In R render_intervals -> (i < 50)%nat ->
  (forall e : Env,
     Forall (fun b => b = false) (_get_dones e).1 /\
     Forall (fun b => b = false) (_get_dones e).2) /\
  let w := Nat.iter (S i) (direct_rl_step reset_env_ids _reset_idx)
             (subtest_setup self "direct_rl_env" R) in
  w = after_steps (S i) self "direct_rl_env" R /\
  env_class w.1 = DirectRLEnv /\
  num_physics_steps w.2 =
    expected_physics_steps (Z.of_nat i) (decimation (cfg w.1)) /\
  num_render_steps w.2 =
    expected_render_steps (Z.of_nat i) (decimation (cfg w.1))
      (render_interval (sim (cfg w.1))).
Proof.
  intros Hsel HR _. split; [exact get_dones_all_false |]. cbn zeta.
  rewrite (iter_direct_rl_step _ _ _ _ Hsel).
  change (Nat.iter (S i) step (subtest_setup self "direct_rl_env" R))
    with (after_steps (S i) self "direct_rl_env" R).
  destruct (counts_after_steps (S i) self "direct_rl_env" R
              (render_intervals_pos R HR)) as (HD & HRI & _ & Hp & Hr).
  split; [reflexivity |]. split.
  { unfold after_steps. rewrite iter_step, iter_sim_step_env_class. reflexivity. }
  rewrite Hp, Hr, HD, HRI. unfold expected_physics_steps, expected_render_steps.
  split; [lia | f_equal; lia].
Qed.

Lemma direct_rl_env_never_resets_witness :
  let wipe := fun (_ : list nat) (w : Env * TestEnvRenderingLogic) => (w.1, fresh) in
  only_flagged flagged_ids /\ In 2 render_intervals /\ (3 < 50)%nat /\
  (forall e : Env,
     Forall (fun b => b = false) (_get_dones e).1 /\
     Forall (fun b => b = false) (_get_dones e).2) /\
  let w := Nat.iter 4 (direct_rl_step flagged_ids wipe)
             (subtest_setup fresh "direct_rl_env" 2) in
  w = after_steps 4 fresh "direct_rl_env" 2 /\
  env_class w.1 = DirectRLEnv /\
  num_physics_steps w.2 = expected_physics_steps 3 (decimation (cfg w.1)) /\
  num_render_steps w.2 =
    expected_render_steps 3 (decimation (cfg w.1)) (render_interval (sim (cfg w.1))).
Proof.
  cbn zeta. split; [exact flagged_ids_only_flagged |].
  split; [simpl; tauto |]. split; [lia |].
  apply (direct_rl_env_never_resets flagged_ids
           (fun _ w => (w.1, fresh)) fresh 2 3);
    [exact flagged_ids_only_flagged | simpl; tauto | lia].
Defined.

(** ** The deformable-object configuration class *)

Section DeformableObjectCfg_fields.

(** The fields [AssetBaseCfg] declares; that class is not among the
    sources. *)
Variable AssetBaseCfg_fields : gmap string field.

Lemma class_fields_DeformableObjectCfg :
  class_fields AssetBaseCfg_fields DeformableObjectCfg =
  <["class_type" :=
      {| annotation := "type"; default := ClassRef "DeformableObject" |}]>
    AssetBaseCfg_fields.
Proof. reflexivity. Qed.

(** C7: [DeformableObjectCfg] has the single base [AssetBaseCfg]; its body
    declares [class_type], bound to the class [DeformableObject], and
    nothing else, and defines no function.  So its fields are those of
    [AssetBaseCfg] with [class_type] set to [DeformableObject]: apart from
    [class_type] the two classes have the same fields. *)
Theorem DeformableObjectCfg_binds_class_type :
  cls_bases DeformableObjectCfg = ["AssetBaseCfg"] /\
  map fst (cls_body DeformableObjectCfg) = ["class_type"] /\
  cls_methods DeformableObjectCfg = [] /\
  class_fields AssetBaseCfg_fields DeformableObjectCfg !! "class_type" =
    Some {| annotation := "type"; default := ClassRef "DeformableObject" |} /\
  delete "class_type" (class_fields AssetBaseCfg_fields DeformableObjectCfg) =
    delete "class_type" AssetBaseCfg_fields.
Proof.
  split; [reflexivity |]. split; [reflexivity |]. split; [reflexivity |].
  rewrite class_fields_DeformableObjectCfg. split.
  - apply lookup_insert_eq.
  - apply delete_insert_eq.
Qed.

End DeformableObjectCfg_fields.

(** * Further properties of the test's code *)

(** ** The two callbacks under any schedule *)

(** The physics and the render callback act on different accumulators: the
    order in which a physics call and a render call reach the instance does
    not matter. *)
Theorem callbacks_commute self (d : float) (e : IEvent) :
  _render_callback (_physics_callback self d) e =
  _physics_callback (_render_callback self e) d.
Proof. reflexivity. Qed.

Lemma do_calls_cons self c cs :
  do_calls self (c :: cs) = do_calls (do_call self c) cs.
Proof. reflexivity. Qed.

(** Whatever the order in which the simulation loop makes its calls, each
    counter grows by exactly the number of calls of its kind. *)
Theorem callbacks_count_calls cs : forall self,
  num_physics_steps (do_calls self cs) =
    num_physics_steps self + Z.of_nat (length (physics_dts cs)) /\
  num_render_steps (do_calls self cs) =
    num_render_steps self + Z.of_nat (length (render_events cs)).
Proof.
  induction cs as [| c cs IH]; intros self.
  - cbn. lia.
  - rewrite do_calls_cons. destruct (IH (do_call self c)) as (Hp & Hr).
    rewrite Hp, Hr. destruct c as [d | e].
    + change (physics_dts (PhysicsCall d :: cs)) with (d :: physics_dts cs).
      change (render_events (PhysicsCall d :: cs)) with (render_events cs).
      cbn [do_call _physics_callback num_physics_steps num_render_steps length].
      lia.
    + change (physics_dts (RenderCall e :: cs)) with (physics_dts cs).
      change (render_events (RenderCall e :: cs)) with (e :: render_events cs).
      cbn [do_call _render_callback num_physics_steps num_render_steps length].
      lia.
Qed.

(** Whatever the interleaving, [physics_time] is the left-to-right float sum
    of the physics timesteps alone, and [render_time] that of the render
    payloads alone: render calls never disturb the physics sum and physics
    calls never disturb the render sum. *)
Theorem callbacks_accumulate_separately cs : forall self,
  physics_time (do_calls self cs) =
    foldl PrimFloat.add (physics_time self) (physics_dts cs) /\
  render_time (do_calls self cs) =
    foldl (fun t e => (t + payload_dt e)%float) (render_time self) (render_events cs).
Proof.
  induction cs as [| c cs IH]; intros self.
  - split; reflexivity.
  - rewrite do_calls_cons. destruct (IH (do_call self c)) as (Hp & Hr).
    rewrite Hp, Hr. destruct c; split; reflexivity.
Qed.

(** ** Building the environment of a sub-test *)

(** The [if]/[elif]/[else] picks the class by the string: the manager-based
    environment for exactly ["manager_based_env"], the manager-based RL one
    for exactly ["manager_based_rl_env"], and the direct RL environment for
    every other string; no string is refused. *)
Theorem create_env_dispatch env_type R :
  (env_class (create_env env_type R) = ManagerBasedEnv <->
     env_type = "manager_based_env") /\
  (env_class (create_env env_type R) = ManagerBasedRLEnv <->
     env_type = "manager_based_rl_env") /\
  (env_class (create_env env_type R) = DirectRLEnv <->
     env_type <> "manager_based_env" /\ env_type <> "manager_based_rl_env").
Proof.
  unfold create_env.
  destruct (String.eqb_spec env_type "manager_based_env") as [-> | N1].
  { cbn. repeat split; try discriminate; try reflexivity; intros []; congruence. }
  destruct (String.eqb_spec env_type "manager_based_rl_env") as [-> | N2].
  { cbn. repeat split; try discriminate; try reflexivity; intros []; congruence. }
  cbn. repeat split; try discriminate; try assumption; intros; congruence.
Qed.

(** The two nested loops visit exactly the pairs of a listed environment type
    and a listed render interval, and none of them twice. *)
Theorem subtests_are_the_pairs env_type R :
  (In (env_type, R) subtests <-> In env_type env_types /\ In R render_intervals) /\
  NoDup subtests.
Proof.
  split.
  - rewrite <- !list_elem_of_In. unfold subtests.
    rewrite list_elem_of_bind. split.
    + intros (t & H1 & H2). apply list_elem_of_fmap in H1 as (r & Heq & Hr).
      inversion Heq; subst. split; assumption.
    + intros (H1 & H2). exists env_type. split; [| exact H1].
      apply list_elem_of_fmap. exists R. split; [reflexivity | exact H2].
  - apply (bool_decide_unpack _). vm_compute. reflexivity.
Qed.

(** ** The stepping loop *)



(** The loop passes exactly when the checks pass after every step, the
    [k]-th check seeing the state after [k+1] steps; and when it passes it
    has taken as many steps as there are indices. *)
Theorem step_loop_passes_iff indices : forall w,
  ((step_loop indices w).1 = Passed <->
   forall (k : nat) i, indices !! k = Some i ->
     check_after_step i (Nat.iter (S k) step w) = Passed) /\
  ((step_loop indices w).1 = Passed ->
   (step_loop indices w).2 = Nat.iter (length indices) step w).
Proof.
  induction indices as [| i indices IH]; intros w.
  - cbn. split; [split; [intros _ k i H; discriminate H | reflexivity] | reflexivity].
  - cbn [step_loop length]. destruct (IH (step w)) as (IH1 & IH2).
    destruct (check_after_step i (step w)) eqn:E.
    + split.
      * rewrite IH1. split.
        -- intros H [| k] j Hj.
           ++ cbn in Hj. injection Hj as <-. exact E.
           ++ rewrite Nat.iter_succ_r. apply H. exact Hj.
        -- intros H k j Hj. rewrite <- Nat.iter_succ_r. apply (H (S k)). exact Hj.
      * intros H. rewrite Nat.iter_succ_r. apply IH2. exact H.
    + cbn. split; [split; [discriminate |] | discriminate].
      intros H. specialize (H 0%nat i eq_refl). cbn in H. congruence.
Qed.

(** The loop stops at the first failing check: it returns that failure and
    the state right after the failing step, and takes no further step. *)
Theorem step_loop_stops_at_first_failure indices : forall w (k : nat) i msg j,
  indices !! k = Some i ->
  (forall (k' : nat) i', (k' < k)%nat -> indices !! k' = Some i' ->
     check_after_step i' (Nat.iter (S k') step w) = Passed) ->
  check_after_step i (Nat.iter (S k) step w) = Failed msg j ->
  step_loop indices w = (Failed msg j, Nat.iter (S k) step w).
Proof.
  induction indices as [| i0 indices IH]; intros w k i msg j Hk Hbefore Hfail.
  - discriminate Hk.
  - cbn [step_loop]. destruct k as [| k].
    + cbn in Hk. injection Hk as ->.
      change (Nat.iter 1 step w) with (step w) in Hfail |- *.
      rewrite Hfail. reflexivity.
    + pose proof (Hbefore 0%nat i0 ltac:(lia) eq_refl) as H0.
      change (Nat.iter 1 step w) with (step w) in H0. rewrite H0.
      rewrite Nat.iter_succ_r. apply (IH (step w) k i msg j Hk).
      * intros k' i' Hlt Hk'. rewrite <- Nat.iter_succ_r.
        apply (Hbefore (S k') i'); [lia | exact Hk'].
      * rewrite <- Nat.iter_succ_r. exact Hfail.
Qed.

(** An environment whose physics-step counter stood at 5 when the loop
    began, with render interval 10: the first step passes its checks (four
    physics steps, no render yet), the second does not, a render having come
    after five more physics steps instead of ten. *)
Lemma step_loop_stops_at_first_failure_witness :
  let w := (set_sim_step_counter 5 (subtest_setup fresh "manager_based_env" 10).1,
            fresh) in
  range 50 !! 1%nat = Some 1 /\
  check_after_step 0 (Nat.iter 1 step w) = Passed /\
  check_after_step 1 (Nat.iter 2 step w) = Failed "Render steps mismatch" 1 /\
  step_loop (range 50) w =
    (Failed "Render steps mismatch" 1, Nat.iter 2 step w).
Proof.
  cbn zeta. split; [reflexivity |]. split; [vm_compute; reflexivity |].
  split; [vm_compute; reflexivity |].
  apply (step_loop_stops_at_first_failure (range 50) _ 1%nat 1
           "Render steps mismatch" 1).
  - reflexivity.
  - intros k' i' Hlt Hk'. assert (k' = 0%nat) as -> by lia.
    injection Hk' as <-. vm_compute. reflexivity.
  - vm_compute. reflexivity.
Defined.

(** ** The test method as a whole *)

(** Folding a body that ignores the state it is handed: the collected
    results are those of running the body on any fixed state, and the state
    left is the one the last element leaves. *)
Lemma foldl_collect {S A O : Type} (f : S -> A -> O * S)
    (f_forgets : forall s s' a, f s a = f s' a) (s0 : S) (ps : list A) :
  forall acc s,
  foldl (fun acc p => let r := f acc.2 p in (acc.1 ++ [r.1], r.2)) (acc, s) ps =
  (acc ++ map (fun p => (f s0 p).1) ps,
   match last ps with Some p => (f s0 p).2 | None => s end).
Proof.
  induction ps as [| p ps IH]; intros acc s.
  - cbn. rewrite app_nil_r. reflexivity.
  - change (foldl (fun acc p => let r := f acc.2 p in (acc.1 ++ [r.1], r.2))
              (acc, s) (p :: ps))
      with (foldl (fun acc p => let r := f acc.2 p in (acc.1 ++ [r.1], r.2))
              (acc ++ [(f s p).1], (f s p).2) ps).
    rewrite IH, <- app_assoc, (f_forgets s s0 p). cbn [map app]. f_equal.
    destruct ps as [| q ps]; [reflexivity |].
    change (last (p :: q :: ps)) with (last (q :: ps)).
    destruct (last (q :: ps)) eqn:E; [reflexivity |].
    apply last_None in E. discriminate E.
Qed.

(** Sub-tests do not influence one another: whatever the instance held
    before, the outcome recorded for each sub-test, in loop order, is the one
    that sub-test has when run alone on a fresh instance (so a failing
    sub-test changes nothing for the later ones), there is one outcome per
    sub-test, and the instance is left as the last sub-test leaves it. *)
Theorem subtests_run_in_isolation self :
  (test_env_rendering_logic self).1 =
    map (fun p => (subtest fresh p.1 p.2).1) subtests /\
  length (test_env_rendering_logic self).1 = length subtests /\
  (test_env_rendering_logic self).2 = (subtest fresh "direct_rl_env" 10).2.
Proof.
  assert (H : test_env_rendering_logic self =
              ([] ++ map (fun p => (subtest fresh p.1 p.2).1) subtests,
               match last subtests with
               | Some p => (subtest fresh p.1 p.2).2
               | None => self
               end)).
  { exact (foldl_collect (fun s p => subtest s p.1 p.2)
             (fun s s' p => subtest_forgets s s' p.1 p.2)
             fresh subtests [] self). }
  rewrite H. cbn [fst snd app].
  split; [reflexivity |]. split; [apply length_map | reflexivity].
Qed.

(** ** The counts at any number of steps *)

(** With [env.step] as modelled from the glossary, for every number [n] of
    environment steps and every positive render interval [R], also the ones
    the test does not try: the physics count is [n * decimation], and the
    render count trails it by less than one interval. *)
Theorem render_count_trails_by_less_than_an_interval (n : nat) self env_type R :
  0 < R ->
  let w := after_steps n self env_type R in
  num_physics_steps w.2 = Z.of_nat n * decimation (cfg w.1) /\
  num_render_steps w.2 * R <= num_physics_steps w.2 /\
  num_physics_steps w.2 < (num_render_steps w.2 + 1) * R.
Proof.
  intros HR. cbn zeta.
  destruct (counts_after_steps n self env_type R HR) as (HD & _ & _ & Hp & Hr).
  rewrite Hp, Hr, HD. split; [reflexivity |].
  pose proof (Z.mul_div_le (Z.of_nat n * 4) R HR).
  pose proof (Z.mul_succ_div_gt (Z.of_nat n * 4) R HR).
  lia.
Qed.

Lemma render_count_trails_by_less_than_an_interval_witness :
  0 < 3 /\
  let w := after_steps 5 fresh "manager_based_rl_env" 3 in
  num_physics_steps w.2 = 5 * decimation (cfg w.1) /\
  num_render_steps w.2 * 3 <= num_physics_steps w.2 /\
  num_physics_steps w.2 < (num_render_steps w.2 + 1) * 3.
Proof.
  split; [lia |].
  apply (render_count_trails_by_less_than_an_interval 5 fresh "manager_based_rl_env" 3).
  lia.
Defined.

(** ** The field names of the deformable-object configuration *)

Lemma DeformableObjectCfg_field_names (base : gmap string field) :
  dom (class_fields base DeformableObjectCfg) = {["class_type"]} ∪ dom base.
Proof. unfold class_fields. cbn. apply dom_insert_L. Qed.

(** When the base configuration already declares [class_type], the class
    adds no field: it has exactly the field names of its base, as many fields,
    and only the value of [class_type] is replaced. *)
Theorem DeformableObjectCfg_overrides_inherited_class_type
    (base : gmap string field) (inherited : field) :
  base !! "class_type" = Some inherited ->
  dom (class_fields base DeformableObjectCfg) = dom base /\
  size (class_fields base DeformableObjectCfg) = size base /\
  class_fields base DeformableObjectCfg =
    <["class_type" :=
        {| annotation := "type"; default := ClassRef "DeformableObject" |}]> base.
Proof.
  intros H.
  assert (Hd : dom (class_fields base DeformableObjectCfg) = dom base).
  { rewrite DeformableObjectCfg_field_names.
    apply subseteq_union_1_L, singleton_subseteq_l, elem_of_dom.
    exists inherited. exact H. }
  split; [exact Hd |]. split; [| reflexivity].
  rewrite <- !size_dom, Hd. reflexivity.
Qed.

Lemma DeformableObjectCfg_overrides_inherited_class_type_witness :
  let base : gmap string field :=
    <["class_type" := {| annotation := "type"; default := ClassRef "AssetBase" |}]>
      (<["prim_path" := {| annotation := "str"; default := ClassRef "MISSING" |}]> ∅) in
  base !! "class_type" = Some {| annotation := "type"; default := ClassRef "AssetBase" |} /\
  dom (class_fields base DeformableObjectCfg) = dom base /\
  size (class_fields base DeformableObjectCfg) = size base /\
  class_fields base DeformableObjectCfg =
    <["class_type" :=
        {| annotation := "type"; default := ClassRef "DeformableObject" |}]> base.
Proof.
  cbn zeta. split; [apply lookup_insert_eq |].
  apply (DeformableObjectCfg_overrides_inherited_class_type _
           {| annotation := "type"; default := ClassRef "AssetBase" |}).
  apply lookup_insert_eq.
Defined.

(** ** Why the tracking variables are reset *)

Lemma iter_sim_step_physics (m : nat) w :
  wired w.1 ->
  wired (Nat.iter m sim_step w).1 /\
  num_physics_steps (Nat.iter m sim_step w).2 = num_physics_steps w.2 + Z.of_nat m.
Proof.
  intros Hw. induction m as [| m (Hv & Hn)].
  - cbn. split; [exact Hw | lia].
  - rewrite Nat.iter_succ. split.
    + unfold wired. rewrite sim_step_env. exact Hv.
    + rewrite sim_step_physics_count by exact Hv. lia.
Qed.

(** With [env.step] as modelled (each physics step calls the physics
    callback once), a sub-test whose instance entered the loop with a physics
    count other than zero fails at once: the very first check reports a
    physics step mismatch at index 0, after a single environment step. *)
Theorem stale_physics_count_fails_first_check env_type R self0 :
  0 < R ->
  num_physics_steps self0 <> 0 ->
  let w := ((subtest_setup fresh env_type R).1, self0) in
  step_loop (range 50) w = (Failed "Physics steps mismatch" 0, step w).
Proof.
  intros _ Hne. cbn zeta.
  set (w := ((subtest_setup fresh env_type R).1, self0)).
  destruct (subtest_setup_wired fresh env_type R) as (Hw & _ & _ & Hcfg).
  destruct (create_env_cfg env_type R) as (HD & _).
  assert (HD0 : decimation (cfg w.1) = 4) by (unfold w; cbn [fst]; rewrite Hcfg; exact HD).
  assert (Hstep : num_physics_steps (step w).2 = num_physics_steps self0 + 4).
  { unfold step. rewrite HD0.
    destruct (iter_sim_step_physics (Z.to_nat 4) w Hw) as (_ & ->). reflexivity. }
  assert (HD1 : decimation (cfg (step w).1) = 4).
  { unfold step. rewrite iter_sim_step_cfg. exact HD0. }
  assert (Hcheck : check_after_step 0 (step w) = Failed "Physics steps mismatch" 0).
  { unfold check_after_step, assertEqual, expected_physics_steps. cbn zeta.
    rewrite Hstep, HD1.
    destruct (Z.eqb_spec (num_physics_steps self0 + 4) ((0 + 1) * 4)) as [E | _];
      [lia | reflexivity]. }
  change (range 50) with (0 :: map Z.of_nat (seq 1 49)).
  cbn [step_loop]. rewrite Hcheck. reflexivity.
Qed.

Lemma stale_physics_count_fails_first_check_witness :
  0 < 2 /\
  num_physics_steps (_physics_callback fresh dt_0_005) <> 0 /\
  let w := ((subtest_setup fresh "direct_rl_env" 2).1,
            _physics_callback fresh dt_0_005) in
  step_loop (range 50) w = (Failed "Physics steps mismatch" 0, step w).
Proof.
  split; [lia |]. split; [cbn; lia |].
  apply (stale_physics_count_fails_first_check "direct_rl_env" 2
           (_physics_callback fresh dt_0_005)); [lia | cbn; lia].
Defined.
